(** * AzureBlobStorageConnection: a context manager around the blob SDK client

    Shallow embedding of [src/pdc/azure_BlobStorageConnection.py].

    The class has three attributes and three methods.  Its only collaborators
    are the SDK ([BlobServiceClient(...)] and [client.close()]) and standard
    output ([print]).  Both are modelled as effects of a state-and-exception
    monad: the state holds the instance, the SDK's own state and a trace of
    every outbound call and every printed line, in program order.  A raised
    exception keeps the state reached so far, as in Python. *)

From Stdlib Require Import String List ZArith Lia.
Import ListNotations.
Local Open Scope string_scope.
Local Open Scope list_scope.

(** ** Python values and exceptions *)

(** The values the class handles.  [VRef] is a reference to an object whose
    class lives outside this file (an SDK client, a token credential). *)
Inductive value : Type :=
| VNone
| VBool (b : bool)
| VInt (z : Z)
| VStr (s : string)
| VRef (id : nat).

(** Python's truth test, as the [with] statement applies it to the result of
    [__exit__].  Objects of the external classes are taken as true, the
    default for a class that defines neither [__bool__] nor [__len__]. *)
Definition truthy (v : value) : bool :=
  match v with
  | VNone => false
  | VBool b => b
  | VInt z => negb (Z.eqb z 0)
  | VStr s => negb (String.eqb s "")
  | VRef _ => true
  end.

Definition type_name (v : value) : string :=
  match v with
  | VNone => "NoneType"
  | VBool _ => "bool"
  | VInt _ => "int"
  | VStr _ => "str"
  | VRef _ => "object"
  end.

Record exn : Type := mkExn { exc_type : string; exc_msg : string }.

(** What attribute access raises on a value that has no such attribute. *)
Definition AttributeError (v : value) (attr : string) : exn :=
  mkExn "AttributeError"
        ("'" ++ type_name v ++ "' object has no attribute '" ++ attr ++ "'")%string.

(** The condition the specification names for an exit without a client: an
    exception of a class [IllegalStateError], raised by a check of the
    wrapper itself.  The source defines no such class and makes no such
    check; a caller that catches this class catches an exception only if it
    is of this class. *)
Definition is_IllegalStateError (e : exn) : bool :=
  String.eqb (exc_type e) "IllegalStateError".

Inductive Result (A : Type) : Type :=
| Return (a : A)
| Raise (e : exn).
Arguments Return {A} a.
Arguments Raise {A} e.

(** ** The SDK, as the class sees it *)

(** The two calls the class makes.  Each may raise, and each may change the
    SDK's own state (sessions, counters of a mock). *)
Record SDK : Type := mkSDK {
  sdk_state : Type;
  BlobServiceClient : value -> value -> sdk_state -> Result nat * sdk_state;
  close : nat -> sdk_state -> Result unit * sdk_state
}.

(** Observable events, in program order. *)
Inductive Event : Type :=
| CallBlobServiceClient (url cred : value)
| CallClose (client : nat)
| Printed (line : string).

(** The lines written to standard output. *)
Fixpoint stdout (tr : list Event) : list string :=
  match tr with
  | [] => []
  | Printed s :: tr' => s :: stdout tr'
  | _ :: tr' => stdout tr'
  end.

(** The clients on which [close()] was called. *)
Fixpoint closed (tr : list Event) : list nat :=
  match tr with
  | [] => []
  | CallClose h :: tr' => h :: closed tr'
  | _ :: tr' => closed tr'
  end.

(** The constructor calls, with their arguments. *)
Fixpoint constructed (tr : list Event) : list (value * value) :=
  match tr with
  | [] => []
  | CallBlobServiceClient u c :: tr' => (u, c) :: constructed tr'
  | _ :: tr' => constructed tr'
  end.

(** How many times the line "open connection" was printed. *)
Definition open_lines (tr : list Event) : nat :=
  count_occ string_dec (stdout tr) "open connection".

(** ** The class *)

Record AzureBlobStorageConnection : Type := mkConn {
  storage_url : value;
  credential : value;
  blob_service_client : value
}.

Section Connection.

Variable sdk : SDK.

Record State : Type := mkState {
  self : AzureBlobStorageConnection;
  world : sdk_state sdk;
  trace : list Event
}.

(** State and exceptions.  Unlike a state transformer over an error monad,
    the state survives a raise. *)
Definition M (A : Type) : Type := State -> Result A * State.

Definition ret {A} (a : A) : M A := fun st => (Return a, st).

Definition raise {A} (e : exn) : M A := fun st => (Raise e, st).

Definition bind {A B} (m : M A) (k : A -> M B) : M B :=
  fun st =>
    match m st with
    | (Return a, st') => k a st'
    | (Raise e, st') => (Raise e, st')
    end.

Notation "x <- m ;; k" := (bind m (fun x => k))
  (at level 61, m at next level, right associativity).
Notation "m ;; k" := (bind m (fun _ => k))
  (at level 61, right associativity).

(** Attribute reads and writes on [self]. *)
Definition getattr {A} (f : AzureBlobStorageConnection -> A) : M A :=
  fun st => (Return (f (self st)), st).

Definition set_storage_url (v : value) : M unit :=
  fun st =>
    (Return tt,
     mkState (mkConn v (credential (self st)) (blob_service_client (self st)))
             (world st) (trace st)).

Definition set_credential (v : value) : M unit :=
  fun st =>
    (Return tt,
     mkState (mkConn (storage_url (self st)) v (blob_service_client (self st)))
             (world st) (trace st)).

Definition set_blob_service_client (v : value) : M unit :=
  fun st =>
    (Return tt,
     mkState (mkConn (storage_url (self st)) (credential (self st)) v)
             (world st) (trace st)).

Definition emit (ev : Event) : M unit :=
  fun st => (Return tt, mkState (self st) (world st) (trace st ++ [ev])).

(** [print(line)] *)
Definition print (line : string) : M unit := emit (Printed line).

(** [BlobServiceClient(url, credential=cred)]: the call is recorded, then the
    SDK decides. *)
Definition new_BlobServiceClient (url cred : value) : M value :=
  emit (CallBlobServiceClient url cred) ;;
  fun st =>
    match BlobServiceClient sdk url cred (world st) with
    | (Return h, w') => (Return (VRef h), mkState (self st) w' (trace st))
    | (Raise e, w') => (Raise e, mkState (self st) w' (trace st))
    end.

(** [v.close()]: attribute lookup fails on anything that is not an object;
    on an object the call goes to the SDK. *)
Definition call_close (v : value) : M value :=
  match v with
  | VRef h =>
      emit (CallClose h) ;;
      fun st =>
        match close sdk h (world st) with
        | (Return _, w') => (Return VNone, mkState (self st) w' (trace st))
        | (Raise e, w') => (Raise e, mkState (self st) w' (trace st))
        end
  | _ => raise (AttributeError v "close")
  end.

(** [def __init__(self, storage_url, credential)] *)
Definition __init__ (storage_url0 credential0 : value) : M value :=
  set_storage_url storage_url0 ;;
  set_credential credential0 ;;
  set_blob_service_client VNone ;;
  ret VNone.

(** [def __enter__(self)] *)
Definition __enter__ : M value :=
  url <- getattr storage_url ;;
  cred <- getattr credential ;;
  c <- new_BlobServiceClient url cred ;;
  set_blob_service_client c ;;
  print "open connection" ;;
  r <- getattr blob_service_client ;;
  ret r.

(** [def __exit__(self, exc_type, exc_value, traceback)].  The three
    arguments are all [None] or all set, so one optional exception stands for
    them; the method does not look at them.  It falls off its end, so it
    returns [None]. *)
Definition __exit__ (exc_info : option exn) : M value :=
  c <- getattr blob_service_client ;;
  call_close c ;;
  print "close connection" ;;
  ret VNone.

(** ** The [with] statement *)

(** The suite of a [with ... as client:] statement.  It is given the value
    bound by [as]; it may use the SDK, print and raise.  It holds no reference
    to the manager itself, which the statement keeps anonymous. *)
Definition Suite : Type :=
  value -> sdk_state sdk -> Result unit * sdk_state sdk * list Event.

Definition run_suite (suite : Suite) (target : value) : M unit :=
  fun st =>
    match suite target (world st) with
    | (r, w', evs) => (r, mkState (self st) w' (trace st ++ evs))
    end.

(** [with self as target: suite], by the language reference: [__enter__] is
    called; if it raises, nothing else runs.  Otherwise the suite runs, then
    [__exit__] is called, with the exception if the suite raised one.  That
    exception is raised again unless [__exit__] returned a true value.  An
    exception raised by [__exit__] itself takes its place. *)
Definition with_stmt (suite : Suite) : M unit :=
  target <- __enter__ ;;
  fun st =>
    match run_suite suite target st with
    | (Return _, st') => (__exit__ None ;; ret tt) st'
    | (Raise e, st') =>
        match __exit__ (Some e) st' with
        | (Return r, st'') =>
            if truthy r then (Return tt, st'') else (Raise e, st'')
        | (Raise e', st'') => (Raise e', st'')
        end
    end.

(** A caller's method calls on one instance, each either returning or
    raising; the caller goes on either way. *)
Inductive Call : Type :=
| Enter
| Exit (exc_info : option exn).

Definition run_call (c : Call) (st : State) : State :=
  match c with
  | Enter => snd (__enter__ st)
  | Exit exc_info => snd (__exit__ exc_info st)
  end.

Definition run_calls (cs : list Call) (st : State) : State :=
  fold_left (fun s c => run_call c s) cs st.

Fixpoint enter_calls (cs : list Call) : nat :=
  match cs with
  | [] => 0
  | Enter :: cs' => S (enter_calls cs')
  | Exit _ :: cs' => enter_calls cs'
  end.

Fixpoint exit_calls (cs : list Call) : nat :=
  match cs with
  | [] => 0
  | Enter :: cs' => exit_calls cs'
  | Exit _ :: cs' => S (exit_calls cs')
  end.

(** Several [with] statements on the same instance, one after the other;
    an exception that leaves one of them is caught by the caller, who goes
    on with the next. *)
Definition run_scopes (suites : list Suite) (st : State) : State :=
  fold_left (fun s suite => snd (with_stmt suite s)) suites st.

End Connection.

Arguments mkState {sdk} self world trace.
Arguments self {sdk} s.
Arguments world {sdk} s.
Arguments trace {sdk} s.

(** [with AzureBlobStorageConnection(url, cred) as client: suite] *)
Definition scope_use (sdk : SDK) (url cred : value) (suite : Suite sdk)
  : M sdk unit :=
  bind sdk (__init__ sdk url cred) (fun _ => with_stmt sdk suite).

(** ** A mock SDK that counts its calls *)

Module Mock.

Record state : Type := mkMock {
  next_id : nat;
  close_calls : list nat;
  close_fails : bool
}.

Definition ClientAuthenticationError : exn :=
  mkExn "ClientAuthenticationError" "invalid credential".

Definition HttpResponseError : exn :=
  mkExn "HttpResponseError" "session teardown failed".

Definition ValueError : exn := mkExn "ValueError" "bad blob name".

(** The constructor accepts one key and hands out fresh object ids. *)
Definition new_client (url cred : value) (s : state)
  : Result nat * state :=
  match cred with
  | VStr k =>
      if String.eqb k "validkey"
      then (Return (next_id s),
            mkMock (S (next_id s)) (close_calls s) (close_fails s))
      else (Raise ClientAuthenticationError, s)
  | _ => (Raise ClientAuthenticationError, s)
  end.

(** [close()] records the call, then fails if the mock is told to. *)
Definition close_client (h : nat) (s : state) : Result unit * state :=
  let s' := mkMock (next_id s) (close_calls s ++ [h]) (close_fails s) in
  if close_fails s then (Raise HttpResponseError, s') else (Return tt, s').

Definition sdk : SDK := mkSDK state new_client close_client.

Definition blank : AzureBlobStorageConnection := mkConn VNone VNone VNone.

Definition start (fails : bool) : State sdk :=
  @mkState sdk blank (mkMock 0 [] fails) [].

Definition url : value := VStr "https://acct.blob.example".
Definition key : value := VStr "validkey".

(** A suite that uses the client and returns. *)
Definition suite_ok : Suite sdk := fun _ s => (Return tt, s, []).

(** A suite that raises. *)
Definition suite_raises : Suite sdk := fun _ s => (Raise ValueError, s, []).

(** The instance after construction, and after one successful enter. *)
Definition constructed_st (fails : bool) : State sdk :=
  snd (__init__ sdk url key (start fails)).

Definition entered_st (fails : bool) : State sdk :=
  snd (__enter__ sdk (constructed_st fails)).

(** The instance constructed with a key the mock rejects. *)
Definition rejected_st : State sdk :=
  snd (__init__ sdk url (VStr "expired") (start false)).

(** A second mock, whose constructor serves one client and then refuses. *)
Definition new_client_once (url cred : value) (s : state)
  : Result nat * state :=
  match next_id s with
  | 0 => (Return 0, mkMock 1 (close_calls s) (close_fails s))
  | S _ => (Raise ClientAuthenticationError, s)
  end.

Definition sdk_once : SDK := mkSDK state new_client_once close_client.

Definition entered_once_st : State sdk_once :=
  snd (__enter__ sdk_once
         (snd (__init__ sdk_once url key
                 (@mkState sdk_once blank (mkMock 0 [] false) [])))).

(** A suite that closes the client itself before it returns. *)
Definition suite_closes : Suite sdk :=
  fun target s =>
    match target with
    | VRef h =>
        (Return tt, snd (close_client h s), [CallClose h])
    | _ => (Raise (AttributeError target "close"), s, [])
    end.

End Mock.

(** ** How the methods run *)

Section Properties.

Variable sdk : SDK.

Implicit Types (st : State sdk) (h : nat) (e : exn) (u c v : value).

Lemma stdout_app (t1 t2 : list Event) :
  stdout (t1 ++ t2) = stdout t1 ++ stdout t2.
Proof.
  induction t1 as [|ev t1 IH]; simpl; [reflexivity|].
  destruct ev; simpl; rewrite IH; reflexivity.
Qed.

Lemma closed_app (t1 t2 : list Event) :
  closed (t1 ++ t2) = closed t1 ++ closed t2.
Proof.
  induction t1 as [|ev t1 IH]; simpl; [reflexivity|].
  destruct ev; simpl; rewrite IH; reflexivity.
Qed.

Lemma constructed_app (t1 t2 : list Event) :
  constructed (t1 ++ t2) = constructed t1 ++ constructed t2.
Proof.
  induction t1 as [|ev t1 IH]; simpl; [reflexivity|].
  destruct ev; simpl; rewrite IH; reflexivity.
Qed.

(** [__init__] is three assignments. *)
Lemma init_run u c st :
  __init__ sdk u c st =
  (Return VNone, mkState (mkConn u c VNone) (world st) (trace st)).
Proof. reflexivity. Qed.

(** [__enter__] when the constructor returns a client. *)
Lemma enter_returns st h w' :
  BlobServiceClient sdk (storage_url (self st)) (credential (self st))
                    (world st) = (Return h, w') ->
  __enter__ sdk st =
  (Return (VRef h),
   mkState (mkConn (storage_url (self st)) (credential (self st)) (VRef h))
           w'
           (trace st ++
            [CallBlobServiceClient (storage_url (self st))
                                   (credential (self st));
             Printed "open connection"])).
Proof.
  intros Hnew.
  unfold __enter__, new_BlobServiceClient, print, set_blob_service_client,
    getattr, ret, emit, bind; simpl.
  rewrite Hnew; simpl.
  rewrite <- app_assoc; reflexivity.
Qed.

(** [__enter__] when the constructor raises. *)
Lemma enter_raises st e w' :
  BlobServiceClient sdk (storage_url (self st)) (credential (self st))
                    (world st) = (Raise e, w') ->
  __enter__ sdk st =
  (Raise e,
   mkState (self st) w'
           (trace st ++
            [CallBlobServiceClient (storage_url (self st))
                                   (credential (self st))])).
Proof.
  intros Hnew.
  unfold __enter__, new_BlobServiceClient, getattr, emit, bind; simpl.
  rewrite Hnew; reflexivity.
Qed.

(** A returning [__enter__] means the constructor returned. *)
Lemma enter_inv st r st1 :
  __enter__ sdk st = (Return r, st1) ->
  exists h w',
    BlobServiceClient sdk (storage_url (self st)) (credential (self st))
                      (world st) = (Return h, w') /\
    r = VRef h /\
    st1 = mkState (mkConn (storage_url (self st)) (credential (self st))
                          (VRef h))
                  w'
                  (trace st ++
                   [CallBlobServiceClient (storage_url (self st))
                                          (credential (self st));
                    Printed "open connection"]).
Proof.
  intros Hrun.
  destruct (BlobServiceClient sdk (storage_url (self st))
              (credential (self st)) (world st)) as [[h|e] w'] eqn:Hnew.
  - rewrite (enter_returns _ _ _ Hnew) in Hrun.
    injection Hrun as <- <-. exists h, w'. auto.
  - rewrite (enter_raises _ _ _ Hnew) in Hrun. discriminate.
Qed.

(** [__exit__] with no object stored: the attribute lookup of [close]
    fails, before anything else happens. *)
Lemma exit_no_object exc st :
  (forall h, blob_service_client (self st) <> VRef h) ->
  __exit__ sdk exc st =
  (Raise (AttributeError (blob_service_client (self st)) "close"), st).
Proof.
  intros Hno.
  unfold __exit__, getattr, bind at 1; simpl.
  destruct (blob_service_client (self st)) eqn:Hc; try reflexivity.
  exfalso. eapply Hno. reflexivity.
Qed.

(** [__exit__] when [close()] returns. *)
Lemma exit_returns exc st h w' :
  blob_service_client (self st) = VRef h ->
  close sdk h (world st) = (Return tt, w') ->
  __exit__ sdk exc st =
  (Return VNone,
   mkState (self st) w'
           (trace st ++ [CallClose h; Printed "close connection"])).
Proof.
  intros Hc Hclose.
  unfold __exit__, getattr, bind at 1; simpl. rewrite Hc.
  unfold call_close, print, ret, emit, bind; simpl.
  rewrite Hclose; simpl.
  rewrite <- app_assoc; reflexivity.
Qed.

(** [__exit__] when [close()] raises. *)
Lemma exit_raises exc st h e w' :
  blob_service_client (self st) = VRef h ->
  close sdk h (world st) = (Raise e, w') ->
  __exit__ sdk exc st =
  (Raise e, mkState (self st) w' (trace st ++ [CallClose h])).
Proof.
  intros Hc Hclose.
  unfold __exit__, getattr, bind at 1; simpl. rewrite Hc.
  unfold call_close, emit, bind; simpl.
  rewrite Hclose; reflexivity.
Qed.

(** Whatever happens, neither method touches the two parameters, and
    [__exit__] touches no attribute at all. *)
Lemma exit_self exc st : self (snd (__exit__ sdk exc st)) = self st.
Proof.
  destruct (blob_service_client (self st)) as [| | | |h] eqn:Hc.
  1-4: rewrite exit_no_object; [reflexivity | rewrite Hc; discriminate].
  destruct (close sdk h (world st)) as [[[]|e] w'] eqn:Hclose.
  - rewrite (exit_returns _ _ _ _ Hc Hclose). reflexivity.
  - rewrite (exit_raises _ _ _ _ _ Hc Hclose). reflexivity.
Qed.

Lemma enter_params st :
  storage_url (self (snd (__enter__ sdk st))) = storage_url (self st) /\
  credential (self (snd (__enter__ sdk st))) = credential (self st).
Proof.
  destruct (BlobServiceClient sdk (storage_url (self st))
              (credential (self st)) (world st)) as [[h|e] w'] eqn:Hnew.
  - rewrite (enter_returns _ _ _ Hnew). auto.
  - rewrite (enter_raises _ _ _ Hnew). auto.
Qed.

Lemma run_call_params (call : Call) st :
  storage_url (self (run_call sdk call st)) = storage_url (self st) /\
  credential (self (run_call sdk call st)) = credential (self st).
Proof.
  destruct call as [|exc]; simpl.
  - apply enter_params.
  - rewrite exit_self. auto.
Qed.

(** One run of the [with] statement whose [__enter__] returns: the suite's
    outcome [rb] and the outcome [rc] of [close()] decide everything. *)
Lemma with_stmt_run (suite : Suite sdk) st h w1 rb w2 evs rc w3 :
  BlobServiceClient sdk (storage_url (self st)) (credential (self st))
                    (world st) = (Return h, w1) ->
  suite (VRef h) w1 = (rb, w2, evs) ->
  close sdk h w2 = (rc, w3) ->
  with_stmt sdk suite st =
  (match rc with Return _ => rb | Raise e' => Raise e' end,
   mkState (mkConn (storage_url (self st)) (credential (self st)) (VRef h))
           w3
           (trace st ++
            [CallBlobServiceClient (storage_url (self st))
                                   (credential (self st));
             Printed "open connection"] ++
            evs ++
            CallClose h ::
            match rc with
            | Return _ => [Printed "close connection"]
            | Raise _ => []
            end)).
Proof.
  intros Hnew Hsuite Hclose.
  unfold with_stmt, bind at 1.
  rewrite (enter_returns _ _ _ Hnew).
  unfold run_suite; simpl. rewrite Hsuite.
  destruct rc as [[]|e'].
  - destruct rb as [[]|e].
    + unfold bind, ret.
      erewrite exit_returns by (simpl; eauto). simpl.
      rewrite <- !app_assoc. reflexivity.
    + erewrite exit_returns by (simpl; eauto). simpl.
      rewrite <- !app_assoc. reflexivity.
  - destruct rb as [[]|e].
    + unfold bind.
      erewrite exit_raises by (simpl; eauto). simpl.
      rewrite <- !app_assoc. reflexivity.
    + erewrite exit_raises by (simpl; eauto). simpl.
      rewrite <- !app_assoc. reflexivity.
Qed.

(** [__exit__] with a client stored, whatever [close()] does. *)
Lemma exit_run exc st h :
  blob_service_client (self st) = VRef h ->
  __exit__ sdk exc st =
  (match fst (close sdk h (world st)) with
   | Return _ => Return VNone
   | Raise e => Raise e
   end,
   mkState (self st) (snd (close sdk h (world st)))
           (trace st ++
            CallClose h ::
            match fst (close sdk h (world st)) with
            | Return _ => [Printed "close connection"]
            | Raise _ => []
            end)).
Proof.
  intros Hc.
  destruct (close sdk h (world st)) as [[[]|e] w'] eqn:Hclose; simpl.
  - apply exit_returns; assumption.
  - apply exit_raises; assumption.
Qed.

End Properties.

(** ** The properties of the specification *)

Section Claims.

Variable sdk : SDK.

Implicit Types (st : State sdk) (h : nat) (e : exn) (u c v : value).

(** C7: construction takes the endpoint and the credential, stores both
    unchanged, leaves the client attribute [None], and touches neither the
    SDK nor standard output: no client is constructed and nothing is
    contacted. *)
Theorem init_stores_parameters u c st :
  fst (__init__ sdk u c st) = Return VNone /\
  storage_url (self (snd (__init__ sdk u c st))) = u /\
  credential (self (snd (__init__ sdk u c st))) = c /\
  blob_service_client (self (snd (__init__ sdk u c st))) = VNone /\
  world (snd (__init__ sdk u c st)) = world st /\
  trace (snd (__init__ sdk u c st)) = trace st.
Proof. rewrite init_run. simpl. repeat split. Qed.

(** C5: when the SDK constructor returns a client, [__enter__] has called
    it once, with exactly the stored endpoint and credential, has stored the
    client on the instance, and returns that same stored client. *)
Theorem enter_constructs_stores_returns st h w' :
  BlobServiceClient sdk (storage_url (self st)) (credential (self st))
                    (world st) = (Return h, w') ->
  fst (__enter__ sdk st) = Return (VRef h) /\
  blob_service_client (self (snd (__enter__ sdk st))) = VRef h /\
  fst (__enter__ sdk st) =
    Return (blob_service_client (self (snd (__enter__ sdk st)))) /\
  world (snd (__enter__ sdk st)) = w' /\
  constructed (trace (snd (__enter__ sdk st))) =
    constructed (trace st) ++ [(storage_url (self st), credential (self st))].
Proof.
  intros Hnew. rewrite (enter_returns _ _ _ _ Hnew). simpl.
  rewrite constructed_app. simpl. repeat split.
Qed.

(** C6: when the SDK constructor raises, [__enter__] raises that same
    exception after the one call (no retry, nothing printed), the instance is
    unchanged, so its client attribute is still [None], and an [__exit__]
    after that raises [AttributeError] instead of returning. *)
Theorem enter_failure_stores_nothing st e w' :
  BlobServiceClient sdk (storage_url (self st)) (credential (self st))
                    (world st) = (Raise e, w') ->
  blob_service_client (self st) = VNone ->
  fst (__enter__ sdk st) = Raise e /\
  self (snd (__enter__ sdk st)) = self st /\
  blob_service_client (self (snd (__enter__ sdk st))) = VNone /\
  trace (snd (__enter__ sdk st)) =
    trace st ++
    [CallBlobServiceClient (storage_url (self st)) (credential (self st))] /\
  forall exc,
    __exit__ sdk exc (snd (__enter__ sdk st)) =
    (Raise (mkExn "AttributeError"
                  "'NoneType' object has no attribute 'close'"),
     snd (__enter__ sdk st)).
Proof.
  intros Hnew Hnone. rewrite (enter_raises _ _ _ _ Hnew). simpl.
  repeat split; try assumption.
  intros exc. rewrite exit_no_object; simpl; rewrite Hnone.
  - reflexivity.
  - discriminate.
Qed.

(** C3, as the code has it: [__exit__] on an instance whose client
    attribute is [None] does not return silently: it raises the
    interpreter's [AttributeError] (the lookup of [close] on [None]), not an
    exception of the wrapper's own; it calls nothing, prints nothing and
    changes nothing. *)
Theorem exit_without_client_raises exc st :
  blob_service_client (self st) = VNone ->
  __exit__ sdk exc st =
  (Raise (mkExn "AttributeError"
                "'NoneType' object has no attribute 'close'"),
   st).
Proof.
  intros Hnone. rewrite exit_no_object; rewrite Hnone.
  - reflexivity.
  - discriminate.
Qed.

(** C9: over any sequence of [__enter__] and [__exit__] calls, returning or
    raising, the endpoint and the credential of the instance keep their
    values; after [__init__] these are the constructor's arguments. *)
Theorem calls_preserve_parameters (calls : list Call) st :
  (storage_url (self (run_calls sdk calls st)) = storage_url (self st) /\
   credential (self (run_calls sdk calls st)) = credential (self st)) /\
  forall u c,
    storage_url
      (self (run_calls sdk calls (snd (__init__ sdk u c st)))) = u /\
    credential
      (self (run_calls sdk calls (snd (__init__ sdk u c st)))) = c.
Proof.
  assert (Hgen : forall s : State sdk,
    storage_url (self (run_calls sdk calls s)) = storage_url (self s) /\
    credential (self (run_calls sdk calls s)) = credential (self s)).
  { unfold run_calls.
    induction calls as [|call calls IH]; intros s; simpl.
    - auto.
    - destruct (IH (run_call sdk call s)) as [Hu Hc].
      destruct (run_call_params sdk call s) as [Hu' Hc'].
      split; congruence. }
  split.
  - apply Hgen.
  - intros u c. destruct (Hgen (snd (__init__ sdk u c st))) as [Hu Hc].
    rewrite Hu, Hc, init_run. simpl. auto.
Qed.

(** C10: a second [__enter__] with no [__exit__] in between stores and
    returns the client of the second constructor call, whatever the first
    one was, and [close()] has been called on no client: the SDK is left as
    the constructor left it. *)
Theorem second_enter_overwrites_without_close st h1 st1 h2 w2 :
  __enter__ sdk st = (Return (VRef h1), st1) ->
  BlobServiceClient sdk (storage_url (self st1)) (credential (self st1))
                    (world st1) = (Return h2, w2) ->
  blob_service_client (self st1) = VRef h1 /\
  __enter__ sdk st1 =
    (Return (VRef h2),
     mkState (mkConn (storage_url (self st)) (credential (self st)) (VRef h2))
             w2
             (trace st1 ++
              [CallBlobServiceClient (storage_url (self st))
                                     (credential (self st));
               Printed "open connection"])) /\
  closed (trace (snd (__enter__ sdk st1))) = closed (trace st).
Proof.
  intros H1 H2.
  destruct (enter_inv _ _ _ _ H1) as (h & w1 & Hnew & Hr & ->).
  injection Hr as <-.
  split; [reflexivity|].
  rewrite (enter_returns _ _ _ _ H2). simpl.
  split; [reflexivity|].
  rewrite !closed_app. simpl. rewrite !app_nil_r. reflexivity.
Qed.

(** C8: a scope use in which the constructor, the suite and [close()] all
    return leaves this trace: the constructor call, then "open connection",
    then whatever the suite did, then the [close()] call, then
    "close connection".  The class itself prints exactly these two lines, in
    this order. *)
Theorem scope_use_log_order u c (suite : Suite sdk) st h w1 w2 evs w3 :
  BlobServiceClient sdk u c (world st) = (Return h, w1) ->
  suite (VRef h) w1 = (Return tt, w2, evs) ->
  close sdk h w2 = (Return tt, w3) ->
  scope_use sdk u c suite st =
    (Return tt,
     mkState (mkConn u c (VRef h)) w3
             (trace st ++
              [CallBlobServiceClient u c; Printed "open connection"] ++
              evs ++
              [CallClose h; Printed "close connection"])) /\
  stdout (trace (snd (scope_use sdk u c suite st))) =
    stdout (trace st) ++
    ["open connection"] ++ stdout evs ++ ["close connection"].
Proof.
  intros Hnew Hsuite Hclose.
  assert (Hrun : scope_use sdk u c suite st =
    (Return tt,
     mkState (mkConn u c (VRef h)) w3
             (trace st ++
              [CallBlobServiceClient u c; Printed "open connection"] ++
              evs ++
              [CallClose h; Printed "close connection"]))).
  { unfold scope_use, bind. rewrite init_run.
    erewrite with_stmt_run by (simpl; eauto). reflexivity. }
  split; [exact Hrun|].
  rewrite Hrun. simpl.
  rewrite !stdout_app. simpl. rewrite stdout_app. reflexivity.
Qed.

(** C1, as the code has it: once [__enter__] has returned, [__exit__] runs
    after the suite whether the suite returned or raised, and calls [close()]
    on the stored client exactly once.  [__exit__] never asks for the suite's
    exception to be dropped: the statement ends with that exception whenever
    [close()] returns, and with the exception of [close()] when it raises. *)
Theorem with_stmt_exit_runs_once (suite : Suite sdk) st c st1 rb w2 evs :
  __enter__ sdk st = (Return c, st1) ->
  suite c (world st1) = (rb, w2, evs) ->
  exists h rc w3,
    c = VRef h /\
    blob_service_client (self st1) = VRef h /\
    close sdk h w2 = (rc, w3) /\
    snd (with_stmt sdk suite st) =
      mkState (self st1) w3
              (trace st1 ++ evs ++
               CallClose h ::
               match rc with
               | Return _ => [Printed "close connection"]
               | Raise _ => []
               end) /\
    closed (trace (snd (with_stmt sdk suite st))) =
      closed (trace st1) ++ closed evs ++ [h] /\
    fst (with_stmt sdk suite st) =
      match rc with Return _ => rb | Raise e' => Raise e' end /\
    (forall e, rb = Raise e ->
       (forall e', rc <> Raise e') -> fst (with_stmt sdk suite st) = Raise e) /\
    (forall e, rb = Raise e ->
       exists e', fst (with_stmt sdk suite st) = Raise e').
Proof.
  intros Henter Hsuite.
  destruct (enter_inv _ _ _ _ Henter) as (h & w1 & Hnew & -> & ->).
  simpl in Hsuite.
  destruct (close sdk h w2) as [rc w3] eqn:Hclose.
  exists h, rc, w3.
  rewrite (with_stmt_run _ _ _ _ _ _ _ _ _ _ Hnew Hsuite Hclose). simpl.
  repeat split.
  - exact Hclose.
  - rewrite <- app_assoc. reflexivity.
  - repeat (rewrite closed_app; simpl).
    destruct rc; simpl; rewrite ?app_nil_r; reflexivity.
  - intros e -> Hrc. destruct rc as [[]|e']; [reflexivity|].
    exfalso. eapply Hrc. reflexivity.
  - intros e ->. destruct rc as [[]|e']; eauto.
Qed.

(** C2, as the code has it: the client attribute is [None] after
    construction and holds the client after a successful [__enter__];
    [__exit__] does not clear it, so it still holds the client afterwards,
    and a second [__exit__] calls [close()] on that client again and ends as
    that call ends. *)
Theorem client_stays_after_exit u c st h w1 exc exc' :
  BlobServiceClient sdk u c (world st) = (Return h, w1) ->
  let st1 := snd (__init__ sdk u c st) in
  let st2 := snd (__enter__ sdk st1) in
  let st3 := snd (__exit__ sdk exc st2) in
  blob_service_client (self st1) = VNone /\
  blob_service_client (self st2) = VRef h /\
  blob_service_client (self st3) = VRef h /\
  fst (__exit__ sdk exc' st3) =
    match fst (close sdk h (world st3)) with
    | Return _ => Return VNone
    | Raise e => Raise e
    end /\
  closed (trace (snd (__exit__ sdk exc' st3))) = closed (trace st3) ++ [h].
Proof.
  intros Hnew st1 st2 st3.
  assert (H2 : blob_service_client (self st2) = VRef h).
  { subst st2 st1. rewrite init_run. simpl.
    erewrite enter_returns by (simpl; eauto). reflexivity. }
  assert (H3 : blob_service_client (self st3) = VRef h).
  { subst st3. rewrite exit_self. exact H2. }
  repeat split; try assumption.
  - rewrite (exit_run _ _ _ _ H3). reflexivity.
  - rewrite (exit_run _ _ _ _ H3). simpl.
    rewrite closed_app. simpl.
    destruct (fst (close sdk h (world st3))); reflexivity.
Qed.

(** C4, as the code has it: when [close()] raises inside [__exit__], that
    exception leaves [__exit__] as it is, and the line "close connection" is
    not printed: the trace gains the [close()] call and nothing else. *)
Theorem exit_close_error_propagates_unlogged exc st h e w' :
  blob_service_client (self st) = VRef h ->
  close sdk h (world st) = (Raise e, w') ->
  __exit__ sdk exc st =
    (Raise e, mkState (self st) w' (trace st ++ [CallClose h])) /\
  stdout (trace (snd (__exit__ sdk exc st))) = stdout (trace st).
Proof.
  intros Hc Hclose.
  rewrite (exit_raises _ _ _ _ _ _ Hc Hclose). simpl.
  split; [reflexivity|].
  rewrite stdout_app. simpl. apply app_nil_r.
Qed.

End Claims.

(** ** The properties on the mock SDK *)

(** A valid key: the mock hands out client 0, which is stored and
    returned. *)
Lemma enter_constructs_stores_returns_witness :
  fst (__enter__ Mock.sdk (Mock.constructed_st false)) = Return (VRef 0) /\
  blob_service_client (self (snd (__enter__ Mock.sdk (Mock.constructed_st false))))
    = VRef 0 /\
  fst (__enter__ Mock.sdk (Mock.constructed_st false)) =
    Return (blob_service_client
              (self (snd (__enter__ Mock.sdk (Mock.constructed_st false))))) /\
  world (snd (__enter__ Mock.sdk (Mock.constructed_st false))) =
    Mock.mkMock 1 [] false /\
  constructed (trace (snd (__enter__ Mock.sdk (Mock.constructed_st false)))) =
    constructed (trace (Mock.constructed_st false)) ++ [(Mock.url, Mock.key)].
Proof.
  exact (enter_constructs_stores_returns Mock.sdk (Mock.constructed_st false)
           0 (Mock.mkMock 1 [] false) eq_refl).
Defined.

(** A rejected key: [__enter__] raises, nothing is stored, and [__exit__]
    then raises too. *)
Lemma enter_failure_stores_nothing_witness :
  fst (__enter__ Mock.sdk Mock.rejected_st) = Raise Mock.ClientAuthenticationError /\
  self (snd (__enter__ Mock.sdk Mock.rejected_st)) = self Mock.rejected_st /\
  blob_service_client (self (snd (__enter__ Mock.sdk Mock.rejected_st))) = VNone /\
  trace (snd (__enter__ Mock.sdk Mock.rejected_st)) =
    trace Mock.rejected_st ++
    [CallBlobServiceClient (storage_url (self Mock.rejected_st))
                           (credential (self Mock.rejected_st))] /\
  forall exc,
    __exit__ Mock.sdk exc (snd (__enter__ Mock.sdk Mock.rejected_st)) =
    (Raise (mkExn "AttributeError"
                  "'NoneType' object has no attribute 'close'"),
     snd (__enter__ Mock.sdk Mock.rejected_st)).
Proof.
  exact (enter_failure_stores_nothing Mock.sdk Mock.rejected_st
           Mock.ClientAuthenticationError (Mock.mkMock 0 [] false)
           eq_refl eq_refl).
Defined.

(** [__exit__] right after construction. *)
Lemma exit_without_client_raises_witness :
  __exit__ Mock.sdk None (Mock.constructed_st false) =
  (Raise (mkExn "AttributeError"
                "'NoneType' object has no attribute 'close'"),
   Mock.constructed_st false).
Proof.
  exact (exit_without_client_raises Mock.sdk None (Mock.constructed_st false)
           eq_refl).
Defined.

(** [__exit__] right after construction does fail, but with the
    interpreter's [AttributeError] for [None.close()]: no exception it can
    raise there is of the class [IllegalStateError]. *)
Lemma exit_without_client_not_illegal_state :
  blob_service_client (self (Mock.constructed_st false)) = VNone /\
  fst (__exit__ Mock.sdk None (Mock.constructed_st false)) =
    Raise (AttributeError VNone "close") /\
  exc_type (AttributeError VNone "close") = "AttributeError"%string /\
  forall e,
    fst (__exit__ Mock.sdk None (Mock.constructed_st false)) = Raise e ->
    is_IllegalStateError e = false.
Proof.
  repeat split.
  intros e Hraise. vm_compute in Hraise.
  injection Hraise as <-. reflexivity.
Qed.

(** Two enters in a row: client 0 is replaced by client 1 and never
    closed. *)
Lemma second_enter_overwrites_without_close_witness :
  blob_service_client (self (Mock.entered_st false)) = VRef 0 /\
  __enter__ Mock.sdk (Mock.entered_st false) =
    (Return (VRef 1),
     @mkState Mock.sdk (mkConn (storage_url (self (Mock.constructed_st false)))
                     (credential (self (Mock.constructed_st false)))
                     (VRef 1))
             (Mock.mkMock 2 [] false)
             (trace (Mock.entered_st false) ++
              [CallBlobServiceClient
                 (storage_url (self (Mock.constructed_st false)))
                 (credential (self (Mock.constructed_st false)));
               Printed "open connection"])) /\
  closed (trace (snd (__enter__ Mock.sdk (Mock.entered_st false)))) =
    closed (trace (Mock.constructed_st false)).
Proof.
  exact (second_enter_overwrites_without_close Mock.sdk
           (Mock.constructed_st false) 0 (Mock.entered_st false)
           1 (Mock.mkMock 2 [] false) eq_refl eq_refl).
Defined.

(** The scenario of the specification: valid key, suite returns. *)
Lemma scope_use_log_order_witness :
  scope_use Mock.sdk Mock.url Mock.key Mock.suite_ok (Mock.start false) =
    (Return tt,
     @mkState Mock.sdk (mkConn Mock.url Mock.key (VRef 0)) (Mock.mkMock 1 [0] false)
             (trace (Mock.start false) ++
              [CallBlobServiceClient Mock.url Mock.key;
               Printed "open connection"] ++
              [] ++
              [CallClose 0; Printed "close connection"])) /\
  stdout (trace (snd (scope_use Mock.sdk Mock.url Mock.key Mock.suite_ok
                        (Mock.start false)))) =
    stdout (trace (Mock.start false)) ++
    ["open connection"] ++ stdout [] ++ ["close connection"].
Proof.
  exact (scope_use_log_order Mock.sdk Mock.url Mock.key Mock.suite_ok
           (Mock.start false) 0 (Mock.mkMock 1 [] false)
           (Mock.mkMock 1 [] false) [] (Mock.mkMock 1 [0] false)
           eq_refl eq_refl eq_refl).
Defined.

(** The other scenario: the suite raises [ValueError], [close()] returns. *)
Lemma with_stmt_exit_runs_once_witness :
  exists h rc w3,
    VRef 0 = VRef h /\
    blob_service_client (self (Mock.entered_st false)) = VRef h /\
    close Mock.sdk h (Mock.mkMock 1 [] false) = (rc, w3) /\
    snd (with_stmt Mock.sdk Mock.suite_raises (Mock.constructed_st false)) =
      @mkState Mock.sdk (self (Mock.entered_st false)) w3
              (trace (Mock.entered_st false) ++ [] ++
               CallClose h ::
               match rc with
               | Return _ => [Printed "close connection"]
               | Raise _ => []
               end) /\
    closed (trace (snd (with_stmt Mock.sdk Mock.suite_raises
                          (Mock.constructed_st false)))) =
      closed (trace (Mock.entered_st false)) ++ closed [] ++ [h] /\
    fst (with_stmt Mock.sdk Mock.suite_raises (Mock.constructed_st false)) =
      match rc with
      | Return _ => Raise Mock.ValueError
      | Raise e' => Raise e'
      end /\
    (forall e, @Raise unit Mock.ValueError = Raise e ->
       (forall e', rc <> Raise e') ->
       fst (with_stmt Mock.sdk Mock.suite_raises (Mock.constructed_st false))
       = Raise e) /\
    (forall e, @Raise unit Mock.ValueError = Raise e ->
       exists e',
         fst (with_stmt Mock.sdk Mock.suite_raises (Mock.constructed_st false))
         = Raise e').
Proof.
  exact (with_stmt_exit_runs_once Mock.sdk Mock.suite_raises
           (Mock.constructed_st false) (VRef 0) (Mock.entered_st false)
           (Raise Mock.ValueError) (Mock.mkMock 1 [] false) []
           eq_refl eq_refl).
Defined.

(** With a [close()] that raises, the caller of the [with] statement gets
    that exception, not the [ValueError] of the suite. *)
Lemma close_error_replaces_suite_error :
  fst (__enter__ Mock.sdk (Mock.constructed_st true)) = Return (VRef 0) /\
  fst (fst (Mock.suite_raises (VRef 0) (world (Mock.entered_st true)))) =
    Raise Mock.ValueError /\
  fst (with_stmt Mock.sdk Mock.suite_raises (Mock.constructed_st true)) =
    Raise Mock.HttpResponseError /\
  fst (with_stmt Mock.sdk Mock.suite_raises (Mock.constructed_st true)) <>
    Raise Mock.ValueError.
Proof.
  repeat split; try reflexivity.
  vm_compute. discriminate.
Qed.

(** Construct, enter, exit: the client attribute then holds client 0. *)
Lemma client_stays_after_exit_witness :
  let st1 := snd (__init__ Mock.sdk Mock.url Mock.key (Mock.start false)) in
  let st2 := snd (__enter__ Mock.sdk st1) in
  let st3 := snd (__exit__ Mock.sdk None st2) in
  blob_service_client (self st1) = VNone /\
  blob_service_client (self st2) = VRef 0 /\
  blob_service_client (self st3) = VRef 0 /\
  fst (__exit__ Mock.sdk None st3) =
    match fst (close Mock.sdk 0 (world st3)) with
    | Return _ => Return VNone
    | Raise e => Raise e
    end /\
  closed (trace (snd (__exit__ Mock.sdk None st3))) =
    closed (trace st3) ++ [0].
Proof.
  exact (client_stays_after_exit Mock.sdk Mock.url Mock.key
           (Mock.start false) 0 (Mock.mkMock 1 [] false) None None eq_refl).
Defined.

(** After enter and exit the client attribute is not [None], and a second
    [__exit__] returns: it closes client 0 once more. *)
Lemma second_exit_does_not_fail :
  let st3 := snd (__exit__ Mock.sdk None (Mock.entered_st false)) in
  fst (__exit__ Mock.sdk None (Mock.entered_st false)) = Return VNone /\
  blob_service_client (self st3) = VRef 0 /\
  blob_service_client (self st3) <> VNone /\
  fst (__exit__ Mock.sdk None st3) = Return VNone /\
  closed (trace (snd (__exit__ Mock.sdk None st3))) = [0; 0].
Proof.
  repeat split; try reflexivity.
  vm_compute. discriminate.
Qed.

(** A [close()] that raises, on the mock. *)
Lemma exit_close_error_propagates_unlogged_witness :
  __exit__ Mock.sdk None (Mock.entered_st true) =
    (Raise Mock.HttpResponseError,
     @mkState Mock.sdk (self (Mock.entered_st true)) (Mock.mkMock 1 [0] true)
             (trace (Mock.entered_st true) ++ [CallClose 0])) /\
  stdout (trace (snd (__exit__ Mock.sdk None (Mock.entered_st true)))) =
    stdout (trace (Mock.entered_st true)).
Proof.
  exact (exit_close_error_propagates_unlogged Mock.sdk None
           (Mock.entered_st true) 0 Mock.HttpResponseError
           (Mock.mkMock 1 [0] true) eq_refl eq_refl).
Defined.

(** The exception of [close()] reaches the caller and "close connection"
    was never printed. *)
Lemma close_error_skips_log :
  fst (__exit__ Mock.sdk None (Mock.entered_st true)) =
    Raise Mock.HttpResponseError /\
  stdout (trace (snd (__exit__ Mock.sdk None (Mock.entered_st true)))) =
    ["open connection"] /\
  ~ In "close connection"
       (stdout (trace (snd (__exit__ Mock.sdk None (Mock.entered_st true))))).
Proof.
  repeat split; try reflexivity.
  vm_compute. intros [H|[]]. discriminate H.
Qed.

(** ** Sequences of calls and of scopes *)

Section Sequences.

Variable sdk : SDK.

Implicit Types (st : State sdk) (h : nat) (e : exn) (u c v : value).

Lemma open_lines_app (t1 t2 : list Event) :
  open_lines (t1 ++ t2) = open_lines t1 + open_lines t2.
Proof.
  unfold open_lines. rewrite stdout_app. apply count_occ_app.
Qed.

(** What one [__enter__] adds to the trace. *)
Lemma enter_effect st :
  exists l,
    trace (snd (__enter__ sdk st)) =
      trace st ++
      CallBlobServiceClient (storage_url (self st)) (credential (self st))
      :: l /\
    (l = [] \/ l = [Printed "open connection"]).
Proof.
  destruct (BlobServiceClient sdk (storage_url (self st))
              (credential (self st)) (world st)) as [[h|e] w'] eqn:Hnew.
  - rewrite (enter_returns _ _ _ _ Hnew).
    exists [Printed "open connection"]. auto.
  - rewrite (enter_raises _ _ _ _ Hnew). exists []. auto.
Qed.

(** What one [__exit__] adds to the trace. *)
Lemma exit_effect exc st :
  exists l,
    trace (snd (__exit__ sdk exc st)) = trace st ++ l /\
    (l = [] \/
     exists h, blob_service_client (self st) = VRef h /\
       (l = [CallClose h] \/
        l = [CallClose h; Printed "close connection"])).
Proof.
  destruct (blob_service_client (self st)) as [| | | |h] eqn:Hc.
  1-4: exists []; rewrite exit_no_object by (rewrite Hc; discriminate);
       simpl; rewrite app_nil_r; auto.
  rewrite (exit_run _ _ _ _ Hc). simpl.
  destruct (fst (close sdk h (world st))); eexists; split; eauto.
Qed.

(** The [with] statement when the constructor raises. *)
Lemma with_stmt_no_enter (suite : Suite sdk) st e w' :
  BlobServiceClient sdk (storage_url (self st)) (credential (self st))
                    (world st) = (Raise e, w') ->
  with_stmt sdk suite st =
  (Raise e,
   mkState (self st) w'
           (trace st ++
            [CallBlobServiceClient (storage_url (self st))
                                   (credential (self st))])).
Proof.
  intros Hnew. unfold with_stmt, bind at 1.
  rewrite (enter_raises _ _ _ _ Hnew). reflexivity.
Qed.

(** A stored client stays stored over one call. *)
Lemma run_call_keeps_client (call : Call) st h :
  blob_service_client (self st) = VRef h ->
  exists h', blob_service_client (self (run_call sdk call st)) = VRef h'.
Proof.
  intros Hc. destruct call as [|exc]; simpl.
  - destruct (BlobServiceClient sdk (storage_url (self st))
                (credential (self st)) (world st)) as [[h'|e] w'] eqn:Hnew.
    + rewrite (enter_returns _ _ _ _ Hnew). simpl. eauto.
    + rewrite (enter_raises _ _ _ _ Hnew). simpl. eauto.
  - rewrite exit_self. eauto.
Qed.

(** X1: when the SDK constructor raises, the [with] statement raises that
    exception and nothing of the scope happens: the suite does not run,
    [close()] is not called, nothing is printed and the instance is as it
    was.  The SDK is left as the constructor left it. *)
Theorem with_stmt_enter_failure_skips_suite (suite : Suite sdk) st e w' :
  BlobServiceClient sdk (storage_url (self st)) (credential (self st))
                    (world st) = (Raise e, w') ->
  fst (with_stmt sdk suite st) = Raise e /\
  self (snd (with_stmt sdk suite st)) = self st /\
  world (snd (with_stmt sdk suite st)) = w' /\
  trace (snd (with_stmt sdk suite st)) =
    trace st ++
    [CallBlobServiceClient (storage_url (self st)) (credential (self st))] /\
  closed (trace (snd (with_stmt sdk suite st))) = closed (trace st) /\
  stdout (trace (snd (with_stmt sdk suite st))) = stdout (trace st).
Proof.
  intros Hnew. rewrite (with_stmt_no_enter _ _ _ _ Hnew). simpl.
  rewrite closed_app, stdout_app. simpl. rewrite !app_nil_r.
  repeat split.
Qed.

(** X2: [__exit__] returns only when a client is stored and its [close()]
    returned; it then returns [None], which the [with] statement reads as
    false, and the trace has gained the [close()] call followed by
    "close connection". *)
Theorem exit_returns_only_after_close exc st r st' :
  __exit__ sdk exc st = (Return r, st') ->
  r = VNone /\
  truthy r = false /\
  exists h w',
    blob_service_client (self st) = VRef h /\
    close sdk h (world st) = (Return tt, w') /\
    st' = mkState (self st) w'
                  (trace st ++ [CallClose h; Printed "close connection"]).
Proof.
  intros Hrun.
  destruct (blob_service_client (self st)) as [| | | |h] eqn:Hc.
  1-4: rewrite exit_no_object in Hrun by (rewrite Hc; discriminate);
       discriminate.
  destruct (close sdk h (world st)) as [[[]|e] w'] eqn:Hclose.
  - rewrite (exit_returns _ _ _ _ _ Hc Hclose) in Hrun.
    injection Hrun as <- <-. repeat split. exists h, w'. auto.
  - rewrite (exit_raises _ _ _ _ _ _ Hc Hclose) in Hrun. discriminate.
Qed.

(** X3: over any sequence of [__enter__] and [__exit__] calls the SDK
    constructor is called exactly once per [__enter__], and [close()] at most
    once per [__exit__]. *)
Theorem calls_count_sdk_calls (calls : list Call) st :
  length (constructed (trace (run_calls sdk calls st))) =
    length (constructed (trace st)) + enter_calls calls /\
  length (closed (trace (run_calls sdk calls st))) <=
    length (closed (trace st)) + exit_calls calls.
Proof.
  unfold run_calls. revert st.
  induction calls as [|call calls IH]; intros st; simpl.
  - split; lia.
  - destruct (IH (run_call sdk call st)) as [IHn IHc].
    rewrite IHn. clear IHn.
    destruct call as [|exc]; simpl in *.
    + destruct (enter_effect st) as (l & Ht & Hl).
      rewrite Ht in *. rewrite constructed_app, closed_app in *.
      rewrite !length_app in *. simpl in *.
      destruct Hl as [-> | ->]; simpl in *; split; lia.
    + destruct (exit_effect exc st) as (l & Ht & Hl).
      rewrite Ht in *. rewrite constructed_app, closed_app in *.
      rewrite !length_app in *.
      destruct Hl as [-> | (h & _ & [-> | ->])]; simpl in *; split; lia.
Qed.

(** X4: once a client is stored, no sequence of [__enter__] and [__exit__]
    calls brings the attribute back to [None]: it always holds a client. *)
Theorem client_never_cleared (calls : list Call) st h :
  blob_service_client (self st) = VRef h ->
  exists h',
    blob_service_client (self (run_calls sdk calls st)) = VRef h'.
Proof.
  unfold run_calls. revert st h.
  induction calls as [|call calls IH]; intros st h Hc; simpl.
  - eauto.
  - destruct (run_call_keeps_client call st h Hc) as (h' & Hc').
    eapply IH. exact Hc'.
Qed.

(** X5: the class prints nothing but its two lines: over any sequence of
    [__enter__] and [__exit__] calls, a line on standard output was there
    before or is "open connection" or "close connection". *)
Theorem calls_print_only_open_close (calls : list Call) st line :
  In line (stdout (trace (run_calls sdk calls st))) ->
  In line (stdout (trace st)) \/
  line = "open connection"%string \/ line = "close connection"%string.
Proof.
  unfold run_calls. revert st.
  induction calls as [|call calls IH]; intros st Hin; simpl in *.
  - auto.
  - destruct (IH _ Hin) as [Hold | Hnew]; [|auto].
    destruct call as [|exc]; simpl in Hold.
    + destruct (enter_effect st) as (l & Ht & Hl).
      rewrite Ht, stdout_app in Hold. simpl in Hold.
      apply in_app_or in Hold. destruct Hold as [Hold | Hold]; [auto|].
      destruct Hl as [-> | ->]; simpl in Hold.
      * contradiction.
      * destruct Hold as [<- | []]. auto.
    + destruct (exit_effect exc st) as (l & Ht & Hl).
      rewrite Ht, stdout_app in Hold.
      apply in_app_or in Hold. destruct Hold as [Hold | Hold]; [auto|].
      destruct Hl as [-> | (h & _ & [-> | ->])]; simpl in Hold.
      * contradiction.
      * contradiction.
      * destruct Hold as [<- | []]. auto.
Qed.

(** One [with] statement whose suite neither calls [close()] nor prints
    "open connection" adds as many [close()] calls as "open connection"
    lines: one of each if the constructor returned, none if it raised. *)
Lemma with_stmt_balance (suite : Suite sdk) st :
  (forall v w, closed (snd (suite v w)) = [] /\
               open_lines (snd (suite v w)) = 0) ->
  length (closed (trace (snd (with_stmt sdk suite st)))) +
  open_lines (trace st) =
  length (closed (trace st)) +
  open_lines (trace (snd (with_stmt sdk suite st))).
Proof.
  intros Hquiet.
  destruct (BlobServiceClient sdk (storage_url (self st))
              (credential (self st)) (world st)) as [[h|e] w1] eqn:Hnew.
  - destruct (suite (VRef h) w1) as [[rb w2] evs] eqn:Hsuite.
    destruct (close sdk h w2) as [rc w3] eqn:Hclose.
    rewrite (with_stmt_run _ _ _ _ _ _ _ _ _ _ Hnew Hsuite Hclose).
    destruct (Hquiet (VRef h) w1) as [Hc Ho].
    rewrite Hsuite in Hc, Ho. simpl in Hc, Ho.
    cbn [snd trace].
    rewrite !closed_app, !open_lines_app, !length_app, Hc, Ho.
    destruct rc as [[]|e']; cbn; lia.
  - rewrite (with_stmt_no_enter _ _ _ _ Hnew). cbn [snd trace].
    rewrite closed_app, open_lines_app, length_app. cbn. lia.
Qed.

(** X6: over any sequence of [with] statements on one instance, whether
    constructors, suites or [close()] calls return or raise, every
    "open connection" is matched by one [close()] call: the two counts grow
    by the same amount.  The suites are taken not to call [close()] or to
    print that line themselves. *)
Theorem scopes_balance_opens_and_closes (suites : list (Suite sdk)) st :
  Forall (fun suite : Suite sdk =>
            forall v w, closed (snd (suite v w)) = [] /\
                        open_lines (snd (suite v w)) = 0) suites ->
  length (closed (trace (run_scopes sdk suites st))) + open_lines (trace st) =
  length (closed (trace st)) + open_lines (trace (run_scopes sdk suites st)).
Proof.
  unfold run_scopes. intros Hall. revert st.
  induction Hall as [|suite suites Hquiet _ IH]; intros st; simpl.
  - lia.
  - specialize (IH (snd (with_stmt sdk suite st))).
    pose proof (with_stmt_balance suite st Hquiet) as Hstep.
    lia.
Qed.

(** X7: the instance can be used for a second scope, and each scope closes
    the client it constructed itself: after two [with] statements whose
    constructors returned [h1] and [h2], [close()] was called on [h1] at the
    end of the first and on [h2] at the end of the second, whatever the
    suites and the first [close()] did; the instance holds [h2]. *)
Theorem second_scope_closes_its_own_client
    (suite1 suite2 : Suite sdk) st h1 w1 rb1 w2 evs1 rc1 w3
    h2 w4 rb2 w5 evs2 :
  BlobServiceClient sdk (storage_url (self st)) (credential (self st))
                    (world st) = (Return h1, w1) ->
  suite1 (VRef h1) w1 = (rb1, w2, evs1) ->
  close sdk h1 w2 = (rc1, w3) ->
  BlobServiceClient sdk (storage_url (self st)) (credential (self st))
                    w3 = (Return h2, w4) ->
  suite2 (VRef h2) w4 = (rb2, w5, evs2) ->
  blob_service_client (self (run_scopes sdk [suite1; suite2] st)) = VRef h2 /\
  world (run_scopes sdk [suite1; suite2] st) = snd (close sdk h2 w5) /\
  closed (trace (run_scopes sdk [suite1; suite2] st)) =
    closed (trace st) ++ closed evs1 ++ [h1] ++ closed evs2 ++ [h2].
Proof.
  intros Hnew1 Hsuite1 Hclose1 Hnew2 Hsuite2.
  unfold run_scopes. simpl.
  rewrite (with_stmt_run _ _ _ _ _ _ _ _ _ _ Hnew1 Hsuite1 Hclose1).
  cbn [snd].
  destruct (close sdk h2 w5) as [rc2 w6] eqn:Hclose2.
  erewrite with_stmt_run by (cbn [self world storage_url credential]; eauto).
  cbn [snd self world trace blob_service_client].
  repeat split.
  repeat (rewrite closed_app; simpl).
  destruct rc1, rc2; simpl; rewrite ?app_nil_r, <- ?app_assoc;
    reflexivity.
Qed.

(** X8: a failing [__enter__] on an instance that already holds a client
    leaves that client stored, and the next [__exit__] calls [close()] on
    it: the client closed is the one of the earlier, successful enter. *)
Theorem failed_reenter_keeps_client exc st h e w' :
  blob_service_client (self st) = VRef h ->
  BlobServiceClient sdk (storage_url (self st)) (credential (self st))
                    (world st) = (Raise e, w') ->
  fst (__enter__ sdk st) = Raise e /\
  blob_service_client (self (snd (__enter__ sdk st))) = VRef h /\
  fst (__exit__ sdk exc (snd (__enter__ sdk st))) =
    match fst (close sdk h w') with
    | Return _ => Return VNone
    | Raise e' => Raise e'
    end /\
  closed (trace (snd (__exit__ sdk exc (snd (__enter__ sdk st))))) =
    closed (trace st) ++ [h].
Proof.
  intros Hc Hnew. rewrite (enter_raises _ _ _ _ Hnew). cbn [fst snd self].
  repeat split; try assumption.
  - erewrite exit_run by (simpl; eauto). reflexivity.
  - erewrite exit_run by (simpl; eauto). cbn [snd trace world self].
    repeat (rewrite closed_app; simpl).
    destruct (fst (close sdk h w')); simpl; rewrite ?app_nil_r; reflexivity.
Qed.

End Sequences.

(** ** The sequences on the mock SDK *)

(** A rejected key: the statement raises and the suite never runs. *)
Lemma with_stmt_enter_failure_skips_suite_witness :
  fst (with_stmt Mock.sdk Mock.suite_ok Mock.rejected_st) =
    Raise Mock.ClientAuthenticationError /\
  self (snd (with_stmt Mock.sdk Mock.suite_ok Mock.rejected_st)) =
    self Mock.rejected_st /\
  world (snd (with_stmt Mock.sdk Mock.suite_ok Mock.rejected_st)) =
    Mock.mkMock 0 [] false /\
  trace (snd (with_stmt Mock.sdk Mock.suite_ok Mock.rejected_st)) =
    trace Mock.rejected_st ++
    [CallBlobServiceClient (storage_url (self Mock.rejected_st))
                           (credential (self Mock.rejected_st))] /\
  closed (trace (snd (with_stmt Mock.sdk Mock.suite_ok Mock.rejected_st))) =
    closed (trace Mock.rejected_st) /\
  stdout (trace (snd (with_stmt Mock.sdk Mock.suite_ok Mock.rejected_st))) =
    stdout (trace Mock.rejected_st).
Proof.
  exact (with_stmt_enter_failure_skips_suite Mock.sdk Mock.suite_ok
           Mock.rejected_st Mock.ClientAuthenticationError
           (Mock.mkMock 0 [] false) eq_refl).
Defined.

(** An [__exit__] that returns, after one enter. *)
Lemma exit_returns_only_after_close_witness :
  VNone = VNone /\
  truthy VNone = false /\
  exists h w',
    blob_service_client (self (Mock.entered_st false)) = VRef h /\
    close Mock.sdk h (world (Mock.entered_st false)) = (Return tt, w') /\
    snd (__exit__ Mock.sdk None (Mock.entered_st false)) =
      @mkState Mock.sdk (self (Mock.entered_st false)) w'
        (trace (Mock.entered_st false) ++
         [CallClose h; Printed "close connection"]).
Proof.
  exact (exit_returns_only_after_close Mock.sdk None (Mock.entered_st false)
           VNone (snd (__exit__ Mock.sdk None (Mock.entered_st false)))
           eq_refl).
Defined.

(** Enter, then exit twice and enter again: a client is still stored. *)
Lemma client_never_cleared_witness :
  exists h',
    blob_service_client
      (self (run_calls Mock.sdk [Exit None; Exit None; Enter]
               (Mock.entered_st false))) = VRef h'.
Proof.
  exact (client_never_cleared Mock.sdk [Exit None; Exit None; Enter]
           (Mock.entered_st false) 0 eq_refl).
Defined.

(** The second line of an enter followed by an exit. *)
Lemma calls_print_only_open_close_witness :
  In "close connection"%string (stdout (trace (Mock.constructed_st false))) \/
  "close connection"%string = "open connection"%string \/
  "close connection"%string = "close connection"%string.
Proof.
  apply (calls_print_only_open_close Mock.sdk [Enter; Exit None]
           (Mock.constructed_st false) "close connection").
  simpl. auto.
Defined.

(** Two scopes on a mock whose [close()] raises, the second suite raising
    as well. *)
Lemma scopes_balance_opens_and_closes_witness :
  length (closed (trace (run_scopes Mock.sdk
                           [Mock.suite_ok; Mock.suite_raises]
                           (Mock.constructed_st true)))) +
  open_lines (trace (Mock.constructed_st true)) =
  length (closed (trace (Mock.constructed_st true))) +
  open_lines (trace (run_scopes Mock.sdk
                       [Mock.suite_ok; Mock.suite_raises]
                       (Mock.constructed_st true))).
Proof.
  apply (scopes_balance_opens_and_closes Mock.sdk
           [Mock.suite_ok; Mock.suite_raises] (Mock.constructed_st true)).
  repeat constructor.
Defined.

(** Two scopes; the first suite closes its client itself, the second
    raises.  Client 0 is closed by the suite and by the first exit, client 1
    by the second exit. *)
Lemma second_scope_closes_its_own_client_witness :
  blob_service_client
    (self (run_scopes Mock.sdk [Mock.suite_closes; Mock.suite_raises]
             (Mock.constructed_st false))) = VRef 1 /\
  world (run_scopes Mock.sdk [Mock.suite_closes; Mock.suite_raises]
           (Mock.constructed_st false)) =
    snd (close Mock.sdk 1 (Mock.mkMock 2 [0; 0] false)) /\
  closed (trace (run_scopes Mock.sdk [Mock.suite_closes; Mock.suite_raises]
                   (Mock.constructed_st false))) =
    closed (trace (Mock.constructed_st false)) ++
    closed [CallClose 0] ++ [0] ++ closed [] ++ [1].
Proof.
  exact (second_scope_closes_its_own_client Mock.sdk
           Mock.suite_closes Mock.suite_raises (Mock.constructed_st false)
           0 (Mock.mkMock 1 [] false)
           (Return tt) (Mock.mkMock 1 [0] false) [CallClose 0]
           (Return tt) (Mock.mkMock 1 [0; 0] false)
           1 (Mock.mkMock 2 [0; 0] false)
           (Raise Mock.ValueError) (Mock.mkMock 2 [0; 0] false) []
           eq_refl eq_refl eq_refl eq_refl eq_refl).
Defined.

(** The constructor serves client 0 and then refuses: the second enter
    raises, and the exit after it closes client 0. *)
Lemma failed_reenter_keeps_client_witness :
  fst (__enter__ Mock.sdk_once Mock.entered_once_st) =
    Raise Mock.ClientAuthenticationError /\
  blob_service_client
    (self (snd (__enter__ Mock.sdk_once Mock.entered_once_st))) = VRef 0 /\
  fst (__exit__ Mock.sdk_once None
         (snd (__enter__ Mock.sdk_once Mock.entered_once_st))) =
    match fst (close Mock.sdk_once 0 (Mock.mkMock 1 [] false)) with
    | Return _ => Return VNone
    | Raise e' => Raise e'
    end /\
  closed (trace (snd (__exit__ Mock.sdk_once None
                        (snd (__enter__ Mock.sdk_once
                                Mock.entered_once_st))))) =
    closed (trace Mock.entered_once_st) ++ [0].
Proof.
  exact (failed_reenter_keeps_client Mock.sdk_once None Mock.entered_once_st
           0 Mock.ClientAuthenticationError (Mock.mkMock 1 [] false)
           eq_refl eq_refl).
Defined.
